(** * fiber-go-swagger: the five mock User handlers of [main.go]

    A shallow embedding of [main.go].  The handlers are written in a state
    monad whose state is what a Go handler can touch: the [*fiber.Ctx] it is
    given (the request, and the response being built) and the output of the
    process-wide [log] package.  The parts of [encoding/json] and of fiber
    that the handlers call are modelled first. *)

From Stdlib Require Import String Ascii List ZArith Bool DecimalString.
From ExtLib Require Import Structures.Monad Structures.MonadState.
From ExtLib Require Import Data.Monads.StateMonad.
Import ListNotations.
Import MonadNotation.
Local Open Scope string_scope.
Local Open Scope Z_scope.
Local Open Scope monad_scope.
Set Warnings "-register-all".

(* ===================================================================== *)
(** * encoding/json *)
(* ===================================================================== *)

Module json.

(** A number literal [-]int[frac][exp], as the scanner accepted it.  [frac]
    is the fraction part with its point ([.25]) and [exp] the exponent part
    with its marker ([e+3], [E-2]); each is empty when the literal has no
    such part. *)
Record Number := mkNumber
  { neg : bool; int : N; frac : string; exp : string }.

(** The text of a literal. *)
Definition literal (lit : Number) : string :=
  (if neg lit then "-" else EmptyString)
  ++ NilEmpty.string_of_uint (N.to_uint (int lit)) ++ frac lit ++ exp lit.

(** A JSON document, after scanning: every inhabitant is syntactically
    valid JSON, and strings are held unquoted.  Object members are kept in
    document order, duplicates included. *)
Inductive value :=
| Null
| Bool (b : bool)
| Num (n : Number)
| Str (s : string)
| Array (elems : list value)
| Object (members : list (string * value)).

(** The errors [Unmarshal] returns. *)
Inductive Error :=
| SyntaxError
| UnmarshalTypeError (Value : string) (Field : string).

(** The literal of a Go [int]. *)
Definition integer (z : Z) : value :=
  Num (mkNumber (z <? 0) (Z.abs_N z) EmptyString EmptyString).

(** [strconv.ParseInt(lit, 10, bitSize)] on a JSON number literal: a
    literal with a fraction or an exponent is not a base-10 integer, and
    an integer outside the signed [bitSize]-bit range is out of range. *)
Definition ParseInt (lit : Number) (bitSize : Z) : option Z :=
  match frac lit, exp lit with
  | EmptyString, EmptyString =>
      let n := if neg lit then - Z.of_N (int lit) else Z.of_N (int lit) in
      if (- 2 ^ (bitSize - 1) <=? n) && (n <=? 2 ^ (bitSize - 1) - 1)
      then Some n else None
  | _, _ => None
  end.

(** Size of Go's [int] on the 64-bit targets. *)
Definition intSize : Z := 64.

(** ASCII case folding of a key, as the decoder's fallback field match
    does it.  (For field names without k, K, s, S, as all of this program's
    are, no non-ASCII letter folds onto a letter of the name.) *)
Definition foldByte (a : ascii) : ascii :=
  let n := nat_of_ascii a in
  if (Nat.leb 65 n && Nat.leb n 90)%bool then ascii_of_nat (n + 32) else a.

Fixpoint foldName (s : string) : string :=
  match s with
  | EmptyString => EmptyString
  | String a r => String (foldByte a) (foldName r)
  end.

Definition equalFold (s t : string) : bool :=
  String.eqb (foldName s) (foldName t).

(** A struct field the decoder can fill: its JSON name (from the [json:]
    tag) and a setter for its Go kind. *)
Inductive setter (A : Type) :=
| StringKind (set : string -> A -> A)
| IntKind (set : Z -> A -> A).
Arguments StringKind {A} set.
Arguments IntKind {A} set.

Record field (A : Type) := mkField { name : string; store : setter A }.
Arguments mkField {A} name store.
Arguments name {A} f.
Arguments store {A} f.

(** What [UnmarshalTypeError.Value] says of a JSON value. *)
Definition describe (v : value) : string :=
  match v with
  | Null => "null"
  | Bool _ => "bool"
  | Num _ => "number"
  | Str _ => "string"
  | Array _ => "array"
  | Object _ => "object"
  end.

(** The decoder's state: the struct being filled and the first type error
    met so far ([d.savedError]). *)
Definition decodeState (A : Type) : Type := (A * option Error)%type.

Definition saveError {A} (e : Error) (d : decodeState A) : decodeState A :=
  match snd d with
  | None => (fst d, Some e)
  | Some _ => d
  end.

(** [literalStore]: a literal into one field.  [null] leaves a string or
    an int untouched; a value of the wrong kind is a type error and the
    field is skipped. *)
Definition literalStore {A} (f : field A) (v : value) (d : decodeState A)
  : decodeState A :=
  match v, store f with
  | Null, _ => d
  | Str s, StringKind set => (set s (fst d), snd d)
  | Num lit, IntKind set =>
      match ParseInt lit intSize with
      | Some n => (set n (fst d), snd d)
      | None =>
          saveError (UnmarshalTypeError ("number " ++ literal lit) (name f)) d
      end
  | _, _ => saveError (UnmarshalTypeError (describe v) (name f)) d
  end.

(** Field lookup for an object key: an exact name match first, then the
    first field whose name matches under case folding. *)
Definition findField {A} (fields : list (field A)) (key : string)
  : option (field A) :=
  match find (fun f => String.eqb (name f) key) fields with
  | Some f => Some f
  | None => find (fun f => equalFold (name f) key) fields
  end.

(** [decodeState.object]: members are stored in document order; a key that
    matches no field is skipped with its value. *)
Fixpoint object {A} (fields : list (field A)) (members : list (string * value))
  (d : decodeState A) : decodeState A :=
  match members with
  | [] => d
  | (key, v) :: rest =>
      let d' := match findField fields key with
                | Some f => literalStore f v d
                | None => d
                end in
      object fields rest d'
  end.

(** [Unmarshal(data, &out)] for a struct [out] with the given fields.
    [data] is [None] when the bytes are not a JSON document. *)
Definition UnmarshalStruct {A} (fields : list (field A))
  (data : option value) (out : A) : A * option Error :=
  match data with
  | None => (out, Some SyntaxError)
  | Some Null => (out, None)
  | Some (Object members) => object fields members (out, None)
  | Some v => (out, Some (UnmarshalTypeError (describe v) EmptyString))
  end.

(** Types [Unmarshal] can decode into and types [Marshal] can encode. *)
Class Unmarshaler (A : Type) :=
  { Unmarshal : option value -> A -> A * option Error }.

Class Marshaler (A : Type) := { Marshal : A -> value }.

#[global] Instance Marshaler_list {A} `{Marshaler A} : Marshaler (list A) :=
  { Marshal := fun l => Array (map Marshal l) }.

End json.

(* ===================================================================== *)
(** * log and fiber *)
(* ===================================================================== *)

(** Go's [error] results: [None] is [nil]. *)
Inductive error :=
| JSONError (e : json.Error)
| ErrUnprocessableEntity.

Module fiber.

(** The request body together with what its Content-Type selects in
    [BodyParser].  The API is declared [@Accept json]: the form, multipart
    and XML decoders of [BodyParser] are outside this model. *)
Inductive Payload :=
| JSONBody (data : option json.value)
    (** a JSON media type; [None]: the bytes are not a JSON document *)
| NoDecoder (raw : string)
    (** a media type [BodyParser] has no decoder for *).

Record Request := mkRequest
  { params : list (string * string);    (** route parameters *)
    queries : list (string * string);   (** query string *)
    payload : Payload }.

Record Response := mkResponse
  { StatusCode : Z;
    ContentType : string;
    Body : option json.value            (** [None]: nothing written *) }.

Record Ctx := mkCtx { request : Request; response : Response }.

(** A context as the server hands it to a handler: status 200, empty body. *)
Definition AcquireCtx (r : Request) : Ctx :=
  mkCtx r (mkResponse 200 EmptyString None).

(** What a handler runs in: its context and the standard logger's output
    (one entry per line, oldest first, without the time stamp). *)
Record Proc := mkProc { c : Ctx; logged : list string }.

Definition Handler : Type := state Proc (option error).

Definition lookup (key : string) (kvs : list (string * string)) : option string :=
  option_map snd (find (fun kv => String.eqb (fst kv) key) kvs).

(** The route parameter of a request, or the empty string. *)
Definition param (key : string) (r : Request) : string :=
  match lookup key (params r) with Some v => v | None => EmptyString end.

(** [c.Params(key)]. *)
Definition Params (key : string) : state Proc string :=
  gets (fun p => param key (request (c p))).

Definition setResponse (f : Response -> Response) : state Proc unit :=
  p <- get ;;
  put (mkProc (mkCtx (request (c p)) (f (response (c p)))) (logged p)).

(** [c.Status(code)]. *)
Definition Status (code : Z) : state Proc unit :=
  setResponse (fun r => mkResponse code (ContentType r) (Body r)).

(** [c.JSON(data)]: the body becomes the encoding of [data]; encoding does
    not fail for the types of this program. *)
Definition JSON {A} `{json.Marshaler A} (data : A) : Handler :=
  setResponse (fun r =>
    mkResponse (StatusCode r) "application/json" (Some (json.Marshal data))) ;;
  ret None.

(** [c.BodyParser(&out)] with the default [JSONDecoder], [json.Unmarshal]. *)
Definition BodyParser {A} `{json.Unmarshaler A} (out : A)
  : state Proc (A * option error) :=
  p <- get ;;
  match payload (request (c p)) with
  | JSONBody data =>
      let (out', err) := json.Unmarshal data out in
      ret (out', option_map JSONError err)
  | NoDecoder _ => ret (out, Some ErrUnprocessableEntity)
  end.

End fiber.

Module log.

(** [log.Println(a, b)]: the operands separated by a space, on one line. *)
Definition Println (a b : string) : state fiber.Proc unit :=
  p <- get ;;
  put (fiber.mkProc (fiber.c p) (fiber.logged p ++ [a ++ " " ++ b])).

End log.

(* ===================================================================== *)
(** * main.go *)
(* ===================================================================== *)

Module User.
Record t := mk { ID : Z; Name : string; Email : string; Age : Z }.
End User.
Abbreviation User := User.t.

Module CreateUserRequest.
Record t := mk { Name : string; Email : string; Age : Z }.
(** [var req CreateUserRequest] *)
Definition zero : t := mk EmptyString EmptyString 0.
End CreateUserRequest.
Abbreviation CreateUserRequest := CreateUserRequest.t.

Module ErrorResponse.
Record t := mk { Error : string; Message : string }.
End ErrorResponse.
Abbreviation ErrorResponse := ErrorResponse.t.

(** [Data interface{}]: [None] is the nil interface; the only dynamic type
    this program stores in it is [User]. *)
Module SuccessResponse.
Record t := mk { Message : string; Data : option User }.
End SuccessResponse.
Abbreviation SuccessResponse := SuccessResponse.t.

(** The [json:] tags. *)
#[global] Instance Marshaler_User : json.Marshaler User :=
  { Marshal := fun u =>
      json.Object [ ("id", json.integer (User.ID u));
                    ("name", json.Str (User.Name u));
                    ("email", json.Str (User.Email u));
                    ("age", json.integer (User.Age u)) ] }.

#[global] Instance Marshaler_ErrorResponse : json.Marshaler ErrorResponse :=
  { Marshal := fun e =>
      json.Object [ ("error", json.Str (ErrorResponse.Error e));
                    ("message", json.Str (ErrorResponse.Message e)) ] }.

(** [data] is tagged [omitempty]: a nil interface is left out. *)
#[global] Instance Marshaler_SuccessResponse : json.Marshaler SuccessResponse :=
  { Marshal := fun s =>
      json.Object (("message", json.Str (SuccessResponse.Message s)) ::
                   match SuccessResponse.Data s with
                   | Some u => [ ("data", json.Marshal u) ]
                   | None => []
                   end) }.

Definition nameField : json.field CreateUserRequest :=
  json.mkField "name" (json.StringKind (fun s r =>
    CreateUserRequest.mk s (CreateUserRequest.Email r) (CreateUserRequest.Age r))).

Definition emailField : json.field CreateUserRequest :=
  json.mkField "email" (json.StringKind (fun s r =>
    CreateUserRequest.mk (CreateUserRequest.Name r) s (CreateUserRequest.Age r))).

Definition ageField : json.field CreateUserRequest :=
  json.mkField "age" (json.IntKind (fun n r =>
    CreateUserRequest.mk (CreateUserRequest.Name r) (CreateUserRequest.Email r) n)).

Definition CreateUserRequest_fields : list (json.field CreateUserRequest) :=
  [ nameField; emailField; ageField ].

#[global] Instance Unmarshaler_CreateUserRequest : json.Unmarshaler CreateUserRequest :=
  { Unmarshal := json.UnmarshalStruct CreateUserRequest_fields }.

Import fiber.

Definition getUsers : Handler :=
  (* Mock data *)
  let users : list User :=
    [ User.mk 1 "John Doe" "john@example.com" 30;
      User.mk 2 "Jane Smith" "jane@example.com" 25 ] in
  JSON users.

Definition getUserByID : Handler :=
  id <- Params "id" ;;
  let user := User.mk 1 "John Doe" "john@example.com" 30 in
  if String.eqb id "1" then
    JSON user
  else
    Status 404 ;;
    JSON (ErrorResponse.mk "Not Found" "User not found").

Definition createUser : Handler :=
  '(req, err) <- BodyParser CreateUserRequest.zero ;;
  match err with
  | Some _ =>
      Status 400 ;;
      JSON (ErrorResponse.mk "Bad Request" "Invalid JSON format")
  | None =>
      let response :=
        SuccessResponse.mk "User created successfully"
          (Some (User.mk 3 (CreateUserRequest.Name req)
                           (CreateUserRequest.Email req)
                           (CreateUserRequest.Age req))) in
      Status 201 ;;
      JSON response
  end.

Definition updateUser : Handler :=
  id <- Params "id" ;;
  log.Println "update user id:" id ;;
  '(req, err) <- BodyParser CreateUserRequest.zero ;;
  match err with
  | Some _ =>
      Status 400 ;;
      JSON (ErrorResponse.mk "Bad Request" "Invalid JSON format")
  | None =>
      let response :=
        SuccessResponse.mk "User updated successfully"
          (Some (User.mk 1 (CreateUserRequest.Name req)
                           (CreateUserRequest.Email req)
                           (CreateUserRequest.Age req))) in
      JSON response
  end.

Definition deleteUser : Handler :=
  id <- Params "id" ;;
  log.Println "delete user id:" id ;;
  let response := SuccessResponse.mk "User deleted successfully" None in
  JSON response.

(** The API routes [main] registers on the group [/api/v1].  (The CORS
    middleware and the Swagger UI route are not part of the model.) *)
Inductive Method := GET | POST | PUT | DELETE.

Record Route := mkRoute { method : Method; path : string; handler : Handler }.

Definition main : list Route :=
  [ mkRoute GET "/api/v1/users" getUsers;
    mkRoute GET "/api/v1/users/:id" getUserByID;
    mkRoute POST "/api/v1/users" createUser;
    mkRoute PUT "/api/v1/users/:id" updateUser;
    mkRoute DELETE "/api/v1/users/:id" deleteUser ].

(* ===================================================================== *)
(** * Running handlers *)
(* ===================================================================== *)

(** One request: the server acquires a fresh context for it and runs the
    handler; the response is what the handler left in the context.  (An
    error returned by the handler would go to fiber's error handler, which
    is not modelled: see [returned].)  The log is all that lives on from one
    request to the next. *)
Definition serve (h : Handler) (r : Request) : state (list string) Response :=
  mkState (fun log =>
    let (_, p) := runState h (mkProc (AcquireCtx r) log) in
    (response (c p), logged p)).

(** The error the handler hands back to fiber ([nil] is [None]). *)
Definition returned (h : Handler) (r : Request) (log : list string) : option error :=
  evalState h (mkProc (AcquireCtx r) log).

(** Requests answered one after another. *)
Fixpoint serveAll (calls : list (Route * Request)) : state (list string) (list Response) :=
  match calls with
  | [] => ret []
  | (rt, r) :: rest =>
      resp <- serve (handler rt) r ;;
      resps <- serveAll rest ;;
      ret (resp :: resps)
  end.

(** The response to a request on an empty log. *)
Definition answer (h : Handler) (r : Request) : Response :=
  evalState (serve h r) [].

(** What [BodyParser] makes of the body of a request: the request struct
    and the error. *)
Definition parsed (r : Request) : CreateUserRequest * option error :=
  evalState (BodyParser CreateUserRequest.zero) (mkProc (AcquireCtx r) []).

(** The responses the handlers write. *)
Definition jsonResponse {A} `{json.Marshaler A} (code : Z) (data : A) : Response :=
  mkResponse code "application/json" (Some (json.Marshal data)).

Definition badRequest : Response :=
  jsonResponse 400 (ErrorResponse.mk "Bad Request" "Invalid JSON format").

Definition notFound : Response :=
  jsonResponse 404 (ErrorResponse.mk "Not Found" "User not found").

Definition johnDoe : User := User.mk 1 "John Doe" "john@example.com" 30.
Definition janeSmith : User := User.mk 2 "Jane Smith" "jane@example.com" 25.

Definition userOf (id : Z) (req : CreateUserRequest) : User :=
  User.mk id (CreateUserRequest.Name req) (CreateUserRequest.Email req)
    (CreateUserRequest.Age req).

Definition created (req : CreateUserRequest) : Response :=
  jsonResponse 201
    (SuccessResponse.mk "User created successfully" (Some (userOf 3 req))).

Definition updated (req : CreateUserRequest) : Response :=
  jsonResponse 200
    (SuccessResponse.mk "User updated successfully" (Some (userOf 1 req))).

(* ===================================================================== *)
(** * What a JSON object submits *)
(* ===================================================================== *)

(** A member's key names a field when it is the field's JSON name, letter
    case aside. *)
Definition names (fname key : string) : bool := json.equalFold fname key.

Definition isNull (v : json.value) : bool :=
  match v with json.Null => true | _ => false end.

(** The value an object submits for a field: that of the last member, in
    document order, whose key names the field and whose value is not null. *)
Definition submitted (fname : string) (members : list (string * json.value))
  : option json.value :=
  option_map snd
    (find (fun m => names fname (fst m) && negb (isNull (snd m))) (rev members)).

Definition stringOr (dflt : string) (v : option json.value) : string :=
  match v with Some (json.Str s) => s | _ => dflt end.

Definition intOr (dflt : Z) (v : option json.value) : Z :=
  match v with
  | Some (json.Num lit) =>
      match json.ParseInt lit json.intSize with Some n => n | None => dflt end
  | _ => dflt
  end.

(** The request struct an object body stands for. *)
Definition requestOf (members : list (string * json.value)) : CreateUserRequest :=
  CreateUserRequest.mk (stringOr EmptyString (submitted "name" members))
                       (stringOr EmptyString (submitted "email" members))
                       (intOr 0 (submitted "age" members)).

(** A member a [CreateUserRequest] accepts: under [name] or [email] a string
    or null, under [age] an integer literal in the range of [int] or null,
    under any other key anything. *)
Definition accepted (m : string * json.value) : bool :=
  if names "name" (fst m) || names "email" (fst m) then
    match snd m with json.Null | json.Str _ => true | _ => false end
  else if names "age" (fst m) then
    match snd m with
    | json.Null => true
    | json.Num lit =>
        match json.ParseInt lit json.intSize with Some _ => true | None => false end
    | _ => false
    end
  else true.

Definition wellTyped (members : list (string * json.value)) : bool :=
  forallb accepted members.

(** No member's key names the field. *)
Definition omits (fname : string) (members : list (string * json.value)) : bool :=
  forallb (fun m => negb (names fname (fst m))) members.

(** One step of the decoder's walk over the members. *)
Definition storeMember (m : string * json.value)
  (d : json.decodeState CreateUserRequest) : json.decodeState CreateUserRequest :=
  match json.findField CreateUserRequest_fields (fst m) with
  | Some f => json.literalStore f (snd m) d
  | None => d
  end.

(* ===================================================================== *)
(** * Sample requests *)
(* ===================================================================== *)

(** [{"name":"Ann","email":"ann@example.com","age":31}] sent to id 42. *)
Definition annBody : list (string * json.value) :=
  [ ("name", json.Str "Ann"); ("email", json.Str "ann@example.com");
    ("age", json.integer 31) ].

Definition putAnn : Request :=
  mkRequest [("id", "42")] [] (JSONBody (Some (json.Object annBody))).

(** [{"name":"Ann","email":"ann@example.com","age":"30"}]: every field is
    there, the age as a JSON string. *)
Definition postAnnStringAge : Request :=
  mkRequest [] []
    (JSONBody (Some (json.Object
       [ ("name", json.Str "Ann"); ("email", json.Str "ann@example.com");
         ("age", json.Str "30") ]))).

(** An empty name, the email [not-an-email], the age 0: each declared constraint
    ([required], [email], [min=1]) is broken. *)
Definition unvalidatedBody : list (string * json.value) :=
  [ ("name", json.Str EmptyString); ("email", json.Str "not-an-email");
    ("age", json.integer 0) ].

(** [{"name":42}]: [email] and [age] are left out, [name] is a number. *)
Definition postNumericName : Request :=
  mkRequest [] [] (JSONBody (Some (json.Object [ ("name", json.integer 42) ]))).

(** [{"email":"ann@example.com"}]: [name] and [age] are left out. *)
Definition emailOnlyBody : list (string * json.value) :=
  [ ("email", json.Str "ann@example.com") ].

(** [{"age":"30"}] *)
Definition stringAgeBody : list (string * json.value) :=
  [ ("age", json.Str "30") ].

(** Three calls in a row: a delete, the same delete again, a read. *)
Definition sampleCalls : list (Route * Request) :=
  [ (mkRoute DELETE "/api/v1/users/:id" deleteUser, mkRequest [("id", "1")] [] (NoDecoder EmptyString));
    (mkRoute DELETE "/api/v1/users/:id" deleteUser, mkRequest [("id", "1")] [] (NoDecoder EmptyString));
    (mkRoute GET "/api/v1/users/:id" getUserByID, mkRequest [("id", "1")] [] (NoDecoder EmptyString)) ].

(* ===================================================================== *)
(** * docs/swagger.yaml *)
(* ===================================================================== *)

Module swagger.

(** A schema object of the document.  A [$ref] is written as the definition
    it points to; [example] values, which say nothing of validity, are left
    out.  [Any] is the empty schema. *)
Inductive Schema :=
| Any
| String_
| Integer (minimum : option Z)
| ArrayOf (items : Schema)
| ObjectOf (properties : list (string * Schema)) (required : list string).

(** Validation of a JSON value: an integer is a number without fraction and
    exponent part; an object needs its required keys, and each member under
    a declared property must match the property's schema (other members are
    free). *)
Fixpoint validates (s : Schema) (v : json.value) {struct s} : bool :=
  match s with
  | Any => true
  | String_ => match v with json.Str _ => true | _ => false end
  | Integer minimum =>
      match v with
      | json.Num lit =>
          match json.frac lit, json.exp lit with
          | EmptyString, EmptyString =>
              match minimum with
              | Some lo =>
                  lo <=? (if json.neg lit then - Z.of_N (json.int lit)
                          else Z.of_N (json.int lit))
              | None => true
              end
          | _, _ => false
          end
      | _ => false
      end
  | ArrayOf items =>
      match v with
      | json.Array elems => forallb (validates items) elems
      | _ => false
      end
  | ObjectOf properties required =>
      match v with
      | json.Object members =>
          forallb (fun key => existsb (fun m => String.eqb (fst m) key) members)
                  required
          && (fix each (ps : list (string * Schema)) : bool :=
                match ps with
                | [] => true
                | (key, s') :: rest =>
                    forallb (fun m => if String.eqb (fst m) key
                                      then validates s' (snd m) else true) members
                    && each rest
                end) properties
      | _ => false
      end
  end.

(** [definitions:] *)
Definition main_CreateUserRequest : Schema :=
  ObjectOf [ ("age", Integer (Some 1)); ("email", String_); ("name", String_) ]
           [ "age"; "email"; "name" ].

Definition main_ErrorResponse : Schema :=
  ObjectOf [ ("error", String_); ("message", String_) ] [].

Definition main_SuccessResponse : Schema :=
  ObjectOf [ ("data", Any); ("message", String_) ] [].

Definition main_User : Schema :=
  ObjectOf [ ("age", Integer None); ("email", String_); ("id", Integer None);
             ("name", String_) ] [].

(** An operation: what it produces and the responses it documents, by
    status code.  (Summaries, tags and parameter descriptions are left
    out.) *)
Record Operation := mkOperation
  { produces : list string; responses : list (Z * Schema) }.

(** [paths:], relative to [basePath: /api/v1]. *)
Definition paths : list (string * list (Method * Operation)) :=
  [ ("/users",
     [ (GET, mkOperation ["application/json"]
               [ (200, ArrayOf main_User); (500, main_ErrorResponse) ]);
       (POST, mkOperation ["application/json"]
                [ (201, main_SuccessResponse); (400, main_ErrorResponse);
                  (422, main_ErrorResponse) ]) ]);
    ("/users/{id}",
     [ (DELETE, mkOperation ["application/json"]
                  [ (200, main_SuccessResponse); (400, main_ErrorResponse);
                    (404, main_ErrorResponse) ]);
       (GET, mkOperation ["application/json"]
               [ (200, main_User); (400, main_ErrorResponse);
                 (404, main_ErrorResponse) ]);
       (PUT, mkOperation ["application/json"]
               [ (200, main_SuccessResponse); (400, main_ErrorResponse);
                 (404, main_ErrorResponse) ]) ]) ].

Definition sameMethod (a b : Method) : bool :=
  match a, b with
  | GET, GET | POST, POST | PUT, PUT | DELETE, DELETE => true
  | _, _ => false
  end.

(** The operation the document has for a path and a method. *)
Definition operation (path : string) (m : Method) : option Operation :=
  match find (fun p => String.eqb (fst p) path) paths with
  | Some (_, ops) => option_map snd (find (fun o => sameMethod (fst o) m) ops)
  | None => None
  end.

(** The schema an operation documents for a status code. *)
Definition documented (op : Operation) (code : Z) : option Schema :=
  option_map snd (find (fun r => Z.eqb (fst r) code) (responses op)).

End swagger.

(** The [@Router] annotation above each handler of [main.go]: the path and
    the method its documentation is filed under. *)
Definition Router : list (Handler * (string * Method)) :=
  [ (getUsers, ("/users", GET));
    (getUserByID, ("/users/{id}", GET));
    (createUser, ("/users", POST));
    (updateUser, ("/users/{id}", PUT));
    (deleteUser, ("/users/{id}", DELETE)) ].

(** A response is as an operation documents it: the status has an entry,
    the body validates against the entry's schema, and the content type is
    one the operation produces. *)
Definition asDocumented (op : swagger.Operation) (resp : Response) : bool :=
  match swagger.documented op (StatusCode resp), Body resp with
  | Some schema, Some v =>
      swagger.validates schema v
      && existsb (String.eqb (ContentType resp)) (swagger.produces op)
  | _, _ => false
  end.

(* ===================================================================== *)
(** * What the handlers log *)
(* ===================================================================== *)

(** The lines a call leaves in the log, by the method of its route. *)
Definition logLines (call : Route * Request) : list string :=
  match method (fst call) with
  | PUT => [ "update user id: " ++ param "id" (snd call) ]
  | DELETE => [ "delete user id: " ++ param "id" (snd call) ]
  | GET | POST => []
  end.

(** The least and the greatest Go [int]. *)
Definition minInt : Z := - 2 ^ (json.intSize - 1).
Definition maxInt : Z := 2 ^ (json.intSize - 1) - 1.

(** A request with a JSON document as its body. *)
Definition withJSON (ps qs : list (string * string)) (v : json.value) : Request :=
  mkRequest ps qs (JSONBody (Some v)).

(** The members of an object body the decoder acts on: those whose key
    names a field of [CreateUserRequest] and whose value is not null. *)
Definition relevant (m : string * json.value) : bool :=
  (names "name" (fst m) || names "email" (fst m) || names "age" (fst m))
  && negb (isNull (snd m)).

(** Two members alike but for the letter case of the key. *)
Definition sameButCase (m m' : string * json.value) : Prop :=
  json.foldName (fst m) = json.foldName (fst m') /\ snd m = snd m'.

(** A status code a handler can answer with. *)
Definition reachable (h : Handler) (code : Z) : Prop :=
  exists r log, StatusCode (evalState (serve h r) log) = code.

(** The number literal [30.0]. *)
Definition thirtyPointZero : json.Number := json.mkNumber false 30 ".0" EmptyString.

(** The same two members under differently cased keys. *)
Definition shoutedBody : list (string * json.value) :=
  [ ("NAME", json.Str "Ann"); ("Age", json.integer 31) ].

Definition quietBody : list (string * json.value) :=
  [ ("name", json.Str "Ann"); ("age", json.integer 31) ].

(** An update, a failed update, a create, a delete and a read. *)
Definition mixedCalls : list (Route * Request) :=
  [ (mkRoute PUT "/api/v1/users/:id" updateUser,
     mkRequest [("id", "7")] [] (JSONBody (Some (json.Object annBody))));
    (mkRoute PUT "/api/v1/users/:id" updateUser,
     mkRequest [("id", "8")] [] (JSONBody None));
    (mkRoute POST "/api/v1/users" createUser,
     mkRequest [] [] (JSONBody (Some (json.Object annBody))));
    (mkRoute DELETE "/api/v1/users/:id" deleteUser,
     mkRequest [("id", "abc")] [] (NoDecoder EmptyString));
    (mkRoute GET "/api/v1/users/:id" getUserByID,
     mkRequest [("id", "1")] [] (NoDecoder EmptyString)) ].

Definition updateRoute : Route := mkRoute PUT "/api/v1/users/:id" updateUser.

(** A member whose key, when it names a field, is spelled as the field's
    JSON name. *)
Definition plainKey (m : string * json.value) : bool :=
  forallb (fun fname => implb (names fname (fst m)) (String.eqb (fst m) fname))
          [ "name"; "email"; "age" ].

(* ===================================================================== *)
(** * Each handler, run on an arbitrary request and log *)
(* ===================================================================== *)

Lemma getUsers_run r log :
  runState getUsers (mkProc (AcquireCtx r) log)
  = (None, mkProc (mkCtx r (jsonResponse 200 [johnDoe; janeSmith])) log).
Proof. reflexivity. Qed.

Lemma getUserByID_run r log :
  runState getUserByID (mkProc (AcquireCtx r) log)
  = (None, mkProc (mkCtx r (if String.eqb (param "id" r) "1"
                            then jsonResponse 200 johnDoe else notFound)) log).
Proof.
  unfold getUserByID, param. cbn.
  destruct (String.eqb _ "1"); reflexivity.
Qed.

Lemma createUser_run r log :
  runState createUser (mkProc (AcquireCtx r) log)
  = (None, mkProc (mkCtx r (match snd (parsed r) with
                            | Some _ => badRequest
                            | None => created (fst (parsed r))
                            end)) log).
Proof.
  unfold createUser, parsed, evalState, BodyParser. cbn.
  destruct (payload r) as [data | raw]; cbn; [| reflexivity].
  destruct (json.UnmarshalStruct _ data _) as [req [e |]]; reflexivity.
Qed.

Lemma updateUser_run r log :
  runState updateUser (mkProc (AcquireCtx r) log)
  = (None, mkProc (mkCtx r (match snd (parsed r) with
                            | Some _ => badRequest
                            | None => updated (fst (parsed r))
                            end))
                  (log ++ ["update user id: " ++ param "id" r])).
Proof.
  unfold updateUser, parsed, evalState, BodyParser. cbn.
  destruct (payload r) as [data | raw]; cbn; [| reflexivity].
  destruct (json.UnmarshalStruct _ data _) as [req [e |]]; reflexivity.
Qed.

Lemma deleteUser_run r log :
  runState deleteUser (mkProc (AcquireCtx r) log)
  = (None, mkProc (mkCtx r (jsonResponse 200
                              (SuccessResponse.mk "User deleted successfully" None)))
                  (log ++ ["delete user id: " ++ param "id" r])).
Proof. reflexivity. Qed.

Create Rewrite HintDb handlers.
#[local] Hint Rewrite getUsers_run getUserByID_run createUser_run
  updateUser_run deleteUser_run : handlers.

(* ===================================================================== *)
(** * The decoder on a [CreateUserRequest] *)
(* ===================================================================== *)

Lemma names_fold fname key :
  names fname key = true -> json.foldName key = json.foldName fname.
Proof.
  unfold names, json.equalFold. intros H.
  apply String.eqb_eq in H. congruence.
Qed.

Lemma names_refl fname : names fname fname = true.
Proof. apply String.eqb_refl. Qed.

(** The three field names stay apart under case folding: a key names at
    most one field. *)
Lemma names_name key :
  names "name" key = true ->
  names "email" key = false /\ names "age" key = false.
Proof.
  intros H. apply names_fold in H. unfold names, json.equalFold.
  rewrite H. split; reflexivity.
Qed.

Lemma names_email key :
  names "email" key = true ->
  names "name" key = false /\ names "age" key = false.
Proof.
  intros H. apply names_fold in H. unfold names, json.equalFold.
  rewrite H. split; reflexivity.
Qed.

Lemma names_age key :
  names "age" key = true ->
  names "name" key = false /\ names "email" key = false.
Proof.
  intros H. apply names_fold in H. unfold names, json.equalFold.
  rewrite H. split; reflexivity.
Qed.

(** For this struct the exact match never finds a field the folded match
    would not: the lookup is the folded match. *)
Lemma findField_CreateUserRequest key :
  json.findField CreateUserRequest_fields key
  = if names "name" key then Some nameField
    else if names "email" key then Some emailField
    else if names "age" key then Some ageField
    else None.
Proof.
  unfold json.findField, CreateUserRequest_fields. cbn [find json.name nameField emailField ageField].
  fold (names "name" key) (names "email" key) (names "age" key).
  destruct (String.eqb_spec "name" key) as [<- | _]; [reflexivity |].
  destruct (String.eqb_spec "email" key) as [<- | _]; [reflexivity |].
  destruct (String.eqb_spec "age" key) as [<- | _]; [reflexivity |].
  reflexivity.
Qed.

Lemma object_app members m d :
  json.object CreateUserRequest_fields (members ++ [m]) d
  = storeMember m (json.object CreateUserRequest_fields members d).
Proof.
  revert d. induction members as [| [key v] rest IH]; intros d.
  - destruct m as [key v]. reflexivity.
  - cbn [app json.object]. apply IH.
Qed.

Lemma submitted_app fname members m :
  submitted fname (members ++ [m])
  = if names fname (fst m) && negb (isNull (snd m)) then Some (snd m)
    else submitted fname members.
Proof.
  unfold submitted. rewrite rev_unit. cbn [find].
  destruct (names fname (fst m) && negb (isNull (snd m))); reflexivity.
Qed.

(** Once an error is saved it stays. *)
Lemma storeMember_error m d :
  snd d <> None -> snd (storeMember m d) <> None.
Proof.
  destruct d as [req [e |]]; intros H; [| now elim H].
  unfold storeMember.
  destruct (json.findField _ _) as [f |]; [| exact H].
  unfold json.literalStore, json.saveError.
  destruct (snd m) as [| b | lit | s | elems | members], (json.store f);
    cbn; try discriminate.
  destruct (json.ParseInt lit json.intSize); cbn; discriminate.
Qed.

(** An accepted member is stored without an error; one that is not accepted
    leaves an error. *)
Lemma storeMember_accepted m req :
  accepted m = true ->
  storeMember m (req, None)
  = (CreateUserRequest.mk
       (if names "name" (fst m)
        then stringOr (CreateUserRequest.Name req) (Some (snd m))
        else CreateUserRequest.Name req)
       (if names "email" (fst m)
        then stringOr (CreateUserRequest.Email req) (Some (snd m))
        else CreateUserRequest.Email req)
       (if names "age" (fst m)
        then intOr (CreateUserRequest.Age req) (Some (snd m))
        else CreateUserRequest.Age req),
     None).
Proof.
  destruct m as [key v], req as [n e a]. unfold accepted, storeMember.
  cbn [fst snd]. rewrite findField_CreateUserRequest.
  destruct (names "name" key) eqn:Hn.
  - destruct (names_name _ Hn) as [-> ->]. cbn [orb].
    destruct v; intros H; try discriminate H; reflexivity.
  - destruct (names "email" key) eqn:He.
    + destruct (names_email _ He) as [_ ->]. cbn [orb].
      destruct v; intros H; try discriminate H; reflexivity.
    + cbn [orb]. destruct (names "age" key) eqn:Ha; [| reflexivity].
      destruct v as [| b | lit | s | elems | obj]; intros H;
        try discriminate H; try reflexivity.
      unfold json.literalStore, intOr. cbn [json.store ageField fst snd].
      destruct (json.ParseInt lit json.intSize); [reflexivity | discriminate H].
Qed.

Lemma storeMember_rejected m req :
  accepted m = false -> snd (storeMember m (req, None)) <> None.
Proof.
  destruct m as [key v]. unfold accepted, storeMember.
  cbn [fst snd]. rewrite findField_CreateUserRequest.
  destruct (names "name" key) eqn:Hn; cbn [orb].
  - destruct v; intros H; try discriminate H; cbn; discriminate.
  - destruct (names "email" key) eqn:He; cbn [orb].
    + destruct v; intros H; try discriminate H; cbn; discriminate.
    + destruct (names "age" key) eqn:Ha; [| discriminate].
      destruct v as [| b | lit | s | elems | obj]; intros H;
        try discriminate H; try (cbn; discriminate).
      unfold json.literalStore. cbn [json.store ageField].
      destruct (json.ParseInt lit json.intSize); [discriminate H | discriminate].
Qed.

(** The decoder fills the struct with what a well-typed object submits. *)
Lemma object_wellTyped members :
  wellTyped members = true ->
  json.object CreateUserRequest_fields members (CreateUserRequest.zero, None)
  = (requestOf members, None).
Proof.
  induction members as [| m members IH] using rev_ind; intros H.
  - reflexivity.
  - unfold wellTyped in H. rewrite forallb_app in H.
    apply andb_true_iff in H. destruct H as [Hl Hm].
    cbn [forallb] in Hm. rewrite andb_true_r in Hm.
    rewrite object_app, (IH Hl), (storeMember_accepted _ _ Hm).
    unfold requestOf. rewrite !submitted_app. cbn [CreateUserRequest.Name
      CreateUserRequest.Email CreateUserRequest.Age].
    destruct m as [key v]. cbn [fst snd] in *.
    f_equal. unfold accepted in Hm. cbn [fst snd] in Hm.
    destruct (names "name" key) eqn:Hn.
    + destruct (names_name _ Hn) as [-> ->]. cbn [orb] in Hm.
      destruct v; try discriminate Hm; reflexivity.
    + destruct (names "email" key) eqn:He.
      * destruct (names_email _ He) as [_ ->]. cbn [orb] in Hm.
        destruct v; try discriminate Hm; reflexivity.
      * cbn [orb] in Hm. destruct (names "age" key) eqn:Ha; [| reflexivity].
        destruct v as [| b | lit | s | elems | obj];
          try discriminate Hm; try reflexivity.
        cbn [isNull negb andb intOr].
        destruct (json.ParseInt lit json.intSize); [reflexivity | discriminate Hm].
Qed.

(** It leaves an error on any other object. *)
Lemma object_illTyped members :
  wellTyped members = false ->
  snd (json.object CreateUserRequest_fields members (CreateUserRequest.zero, None))
  <> None.
Proof.
  induction members as [| m members IH] using rev_ind; intros H.
  - discriminate H.
  - unfold wellTyped in H. rewrite forallb_app in H. rewrite object_app.
    destruct (forallb accepted members) eqn:Hl.
    + cbn in H. rewrite andb_true_r in H.
      fold (wellTyped members) in Hl. rewrite (object_wellTyped _ Hl).
      apply storeMember_rejected, H.
    + apply storeMember_error, IH, Hl.
Qed.

Lemma omits_submitted fname members :
  omits fname members = true -> submitted fname members = None.
Proof.
  induction members as [| m members IH] using rev_ind; intros H.
  - reflexivity.
  - unfold omits in H. rewrite forallb_app in H.
    apply andb_true_iff in H. destruct H as [Hl Hm].
    cbn in Hm. rewrite andb_true_r in Hm. apply negb_true_iff in Hm.
    rewrite submitted_app, Hm. apply IH, Hl.
Qed.

(* ===================================================================== *)
(** * What [BodyParser] makes of a body *)
(* ===================================================================== *)

Lemma parsed_object ps qs members :
  parsed (mkRequest ps qs (JSONBody (Some (json.Object members))))
  = (fst (json.object CreateUserRequest_fields members (CreateUserRequest.zero, None)),
     option_map JSONError
       (snd (json.object CreateUserRequest_fields members (CreateUserRequest.zero, None)))).
Proof.
  unfold parsed, evalState, BodyParser. cbn.
  destruct (json.object _ _ _) as [req e]. reflexivity.
Qed.

Lemma parsed_wellTyped ps qs members :
  wellTyped members = true ->
  parsed (mkRequest ps qs (JSONBody (Some (json.Object members))))
  = (requestOf members, None).
Proof.
  intros H. rewrite parsed_object, (object_wellTyped _ H). reflexivity.
Qed.

Lemma parsed_illTyped ps qs members :
  wellTyped members = false ->
  snd (parsed (mkRequest ps qs (JSONBody (Some (json.Object members))))) <> None.
Proof.
  intros H. rewrite parsed_object. cbn [snd].
  apply object_illTyped in H.
  destruct (snd (json.object _ _ _)); [discriminate | now elim H].
Qed.

(* ===================================================================== *)
(** * What the server answers *)
(* ===================================================================== *)

Lemma param_id id qs body : param "id" (mkRequest [("id", id)] qs body) = id.
Proof. reflexivity. Qed.

Lemma serve_getUsers r log :
  runState (serve getUsers r) log = (jsonResponse 200 [johnDoe; janeSmith], log).
Proof. reflexivity. Qed.

Lemma serve_getUserByID r log :
  runState (serve getUserByID r) log
  = (if String.eqb (param "id" r) "1" then jsonResponse 200 johnDoe else notFound,
     log).
Proof. unfold serve. cbn [runState]. autorewrite with handlers. reflexivity. Qed.

Lemma serve_createUser r log :
  runState (serve createUser r) log
  = (match snd (parsed r) with
     | Some _ => badRequest
     | None => created (fst (parsed r))
     end, log).
Proof. unfold serve. cbn [runState]. autorewrite with handlers. reflexivity. Qed.

Lemma serve_updateUser r log :
  runState (serve updateUser r) log
  = (match snd (parsed r) with
     | Some _ => badRequest
     | None => updated (fst (parsed r))
     end, (log ++ [("update user id: " ++ param "id" r)%string])%list).
Proof. unfold serve. cbn [runState]. autorewrite with handlers. reflexivity. Qed.

Lemma serve_deleteUser r log :
  runState (serve deleteUser r) log
  = (jsonResponse 200 (SuccessResponse.mk "User deleted successfully" None),
     (log ++ [("delete user id: " ++ param "id" r)%string])%list).
Proof. reflexivity. Qed.

Create Rewrite HintDb served.
#[local] Hint Rewrite serve_getUsers serve_getUserByID serve_createUser
  serve_updateUser serve_deleteUser : served.

(** Bring a statement about the server's answer down to the response the
    handler writes. *)
Ltac served :=
  unfold returned, answer, evalState, execState;
  autorewrite with handlers served; cbn [fst snd].

(** A handler of [main] answers a request the same on any log, and leaves
    the log it found, with at most lines added at the end. *)
Lemma serve_main rt r log :
  In rt main ->
  exists lines,
    runState (serve (handler rt) r) log = (answer (handler rt) r, (log ++ lines)%list).
Proof.
  unfold main.
  intros [<- | [<- | [<- | [<- | [<- | []]]]]]; cbn [handler].
  - exists []. served. now rewrite app_nil_r.
  - exists []. served. now rewrite app_nil_r.
  - exists []. served. now rewrite app_nil_r.
  - exists ["update user id: " ++ param "id" r]. served. reflexivity.
  - exists ["delete user id: " ++ param "id" r]. served. reflexivity.
Qed.

Lemma serveAll_main calls :
  Forall (fun call => In (fst call) main) calls ->
  forall log,
    evalState (serveAll calls) log
    = map (fun call => answer (handler (fst call)) (snd call)) calls.
Proof.
  induction 1 as [| [rt r] calls Hrt _ IH]; intros log.
  - reflexivity.
  - destruct (serve_main rt r log Hrt) as [lines Hrun].
    unfold evalState in *. cbn [serveAll map fst snd].
    cbn [bind Monad_state runState]. rewrite Hrun.
    specialize (IH (log ++ lines)%list).
    destruct (runState (serveAll calls) (log ++ lines)%list) as [resps log'].
    cbn in IH |- *. rewrite IH. reflexivity.
Qed.

(* ===================================================================== *)
(** * The handlers' contracts *)
(* ===================================================================== *)

(** C1. GET /api/v1/users/{id}: when the path parameter is the literal "1"
    the answer is status 200 with the user {id:1, name:"John Doe",
    email:"john@example.com", age:30}; for every other string it is status
    404 with ErrorResponse{error:"Not Found", message:"User not found"}. *)
Theorem getUserByID_literal_1 (id : string) qs body log :
  (id = "1" /\
   evalState (serve getUserByID (mkRequest [("id", id)] qs body)) log
   = mkResponse 200 "application/json"
       (Some (json.Marshal (User.mk 1 "John Doe" "john@example.com" 30))))
  \/
  (id <> "1" /\
   evalState (serve getUserByID (mkRequest [("id", id)] qs body)) log
   = mkResponse 404 "application/json"
       (Some (json.Marshal (ErrorResponse.mk "Not Found" "User not found")))).
Proof.
  served. rewrite param_id.
  destruct (String.eqb_spec id "1") as [-> | Hne].
  - left. split; reflexivity.
  - right. split; [exact Hne | reflexivity].
Qed.

(** C2, as written, fails: a JSON object with all three fields, the age as
    a JSON string, is answered 400 and not 201. *)
Lemma createUser_string_age_is_400 :
  answer createUser postAnnStringAge = badRequest /\
  StatusCode (answer createUser postAnnStringAge) <> 201.
Proof. split; [reflexivity | discriminate]. Qed.

(** C2 (amended). POST /api/v1/users with a JSON object body whose [name]
    and [email] members are strings or null and whose [age] members are
    integer literals in the range of int or null: status 201 with
    SuccessResponse{message:"User created successfully"} and as data the
    User with id 3 and the name, email and age the body submits (the last
    member that is not null, keys matched without regard to case, and the
    zero value when there is none).  Nothing else is asked of the fields:
    not that they are present, nor an email's form, nor a least age. *)
Theorem createUser_echoes_wellTyped members ps qs log :
  wellTyped members = true ->
  evalState (serve createUser (mkRequest ps qs (JSONBody (Some (json.Object members))))) log
  = mkResponse 201 "application/json"
      (Some (json.Marshal
         (SuccessResponse.mk "User created successfully"
            (Some (User.mk 3
                     (stringOr EmptyString (submitted "name" members))
                     (stringOr EmptyString (submitted "email" members))
                     (intOr 0 (submitted "age" members))))))).
Proof.
  intros H. served. rewrite (parsed_wellTyped _ _ _ H). reflexivity.
Qed.

Lemma createUser_echoes_wellTyped_witness :
  wellTyped unvalidatedBody = true /\
  evalState (serve createUser
    (mkRequest [] [] (JSONBody (Some (json.Object unvalidatedBody))))) []
  = mkResponse 201 "application/json"
      (Some (json.Marshal
         (SuccessResponse.mk "User created successfully"
            (Some (User.mk 3 EmptyString "not-an-email" 0))))).
Proof.
  split; [reflexivity |].
  apply (createUser_echoes_wellTyped unvalidatedBody [] [] []). reflexivity.
Defined.

(** C3. PUT /api/v1/users/{id}, for every id and every body that parses
    into a CreateUserRequest: status 200 with
    SuccessResponse{message:"User updated successfully"} and as data the
    User with id 1, whatever the path id, and the name, email and age of
    the parsed request. *)
Theorem updateUser_fixed_id_1 (id : string) qs body req log :
  parsed (mkRequest [("id", id)] qs body) = (req, None) ->
  evalState (serve updateUser (mkRequest [("id", id)] qs body)) log
  = mkResponse 200 "application/json"
      (Some (json.Marshal
         (SuccessResponse.mk "User updated successfully"
            (Some (User.mk 1 (CreateUserRequest.Name req)
                             (CreateUserRequest.Email req)
                             (CreateUserRequest.Age req)))))).
Proof.
  intros H. served. rewrite H. reflexivity.
Qed.

Lemma updateUser_fixed_id_1_witness :
  parsed putAnn = (CreateUserRequest.mk "Ann" "ann@example.com" 31, None) /\
  evalState (serve updateUser putAnn) []
  = mkResponse 200 "application/json"
      (Some (json.Marshal
         (SuccessResponse.mk "User updated successfully"
            (Some (User.mk 1 "Ann" "ann@example.com" 31))))).
Proof.
  split; [reflexivity |].
  apply (updateUser_fixed_id_1 "42" [] (JSONBody (Some (json.Object annBody)))
           (CreateUserRequest.mk "Ann" "ann@example.com" 31) []).
  reflexivity.
Defined.

(** C4. POST /api/v1/users and PUT /api/v1/users/{id} answer status 400
    exactly when the body fails to parse into a CreateUserRequest, and then
    both answer the same ErrorResponse{error:"Bad Request",
    message:"Invalid JSON format"}, which is the whole of the body. *)
Theorem bad_request_iff_parse_fails r log :
  (StatusCode (evalState (serve createUser r) log) = 400 <-> snd (parsed r) <> None) /\
  (StatusCode (evalState (serve updateUser r) log) = 400 <-> snd (parsed r) <> None) /\
  (evalState (serve createUser r) log = badRequest <-> snd (parsed r) <> None) /\
  (evalState (serve updateUser r) log = badRequest <-> snd (parsed r) <> None) /\
  badRequest
  = mkResponse 400 "application/json"
      (Some (json.Object [ ("error", json.Str "Bad Request");
                           ("message", json.Str "Invalid JSON format") ])).
Proof.
  served. destruct (snd (parsed r)) as [e |].
  - repeat split; intros _; try reflexivity; discriminate.
  - repeat split; intros H; try discriminate H; now elim H.
Qed.

(** C5. GET /api/v1/users, whatever the query parameters: status 200 with
    the array of the two fixed users; the handler has no other answer and
    returns no error. *)
Theorem getUsers_constant ps qs body log :
  evalState (serve getUsers (mkRequest ps qs body)) log
  = mkResponse 200 "application/json"
      (Some (json.Marshal
         [ User.mk 1 "John Doe" "john@example.com" 30;
           User.mk 2 "Jane Smith" "jane@example.com" 25 ])) /\
  returned getUsers (mkRequest ps qs body) log = None.
Proof. split; reflexivity. Qed.

(** C6. DELETE /api/v1/users/{id}, for every id: status 200 with
    SuccessResponse{message:"User deleted successfully"}; the serialized
    object has the [message] member alone, no [data]; the handler has no
    other answer and returns no error. *)
Theorem deleteUser_always_succeeds (id : string) qs body log :
  evalState (serve deleteUser (mkRequest [("id", id)] qs body)) log
  = mkResponse 200 "application/json"
      (Some (json.Object [ ("message", json.Str "User deleted successfully") ])) /\
  json.Marshal (SuccessResponse.mk "User deleted successfully" None)
  = json.Object [ ("message", json.Str "User deleted successfully") ] /\
  returned deleteUser (mkRequest [("id", id)] qs body) log = None.
Proof. repeat split. Qed.

(** C7. The handlers do not carry anything from one request to the next.
    The program keeps no User store (each call rebuilds its mock records),
    so the state that outlives a call is the log, which no handler reads.
    For calls to routes of [main] answered one after another from any log:
    each response is the one its own request gets on an empty log, whatever
    was served before; a request repeated n times gets the same response n
    times; and a handler leaves the request of its context as it was. *)
Theorem handlers_keep_no_state calls :
  Forall (fun call => In (fst call) main) calls ->
  forall log,
    evalState (serveAll calls) log
    = map (fun call => answer (handler (fst call)) (snd call)) calls
    /\ (forall call n, In call calls ->
          evalState (serveAll (repeat call n)) log
          = repeat (answer (handler (fst call)) (snd call)) n)
    /\ (forall call log', In call calls ->
          evalState (serve (handler (fst call)) (snd call)) log'
          = evalState (serve (handler (fst call)) (snd call)) log)
    /\ (forall call, In call calls ->
          request (c (execState (handler (fst call))
                        (mkProc (AcquireCtx (snd call)) log)))
          = snd call).
Proof.
  intros Hall log. split; [apply serveAll_main, Hall |].
  rewrite Forall_forall in Hall.
  split; [| split].
  - intros call n Hin.
    rewrite serveAll_main.
    + apply map_repeat.
    + apply Forall_forall. intros x Hx. apply repeat_spec in Hx. subst x.
      apply Hall, Hin.
  - intros call log' Hin. unfold evalState.
    destruct (serve_main _ (snd call) log (Hall _ Hin)) as [l1 ->].
    destruct (serve_main _ (snd call) log' (Hall _ Hin)) as [l2 ->].
    reflexivity.
  - intros [rt r] Hin. specialize (Hall _ Hin). cbn [fst snd] in *.
    unfold main in Hall.
    destruct Hall as [<- | [<- | [<- | [<- | [<- | []]]]]]; cbn [handler];
      served; reflexivity.
Qed.

Lemma handlers_keep_no_state_witness :
  Forall (fun call => In (fst call) main) sampleCalls /\
  evalState (serveAll sampleCalls) ["started"]
  = [ jsonResponse 200 (SuccessResponse.mk "User deleted successfully" None);
      jsonResponse 200 (SuccessResponse.mk "User deleted successfully" None);
      jsonResponse 200 johnDoe ].
Proof.
  assert (H : Forall (fun call => In (fst call) main) sampleCalls).
  { unfold sampleCalls, main. repeat constructor; cbn [fst]; tauto. }
  split; [exact H |].
  exact (proj1 (handlers_keep_no_state sampleCalls H ["started"])).
Defined.

(** C8. Over the five routes of [main]: a handler returns no error to the
    server, and its answer is a success (status 200 or 201) or one of two
    error responses, each a whole ErrorResponse with its status: 400 "Bad
    Request", from POST and PUT alone, and 404 "Not Found", from GET
    /users/{id} alone.  No answer has status 500.  Both errors do occur. *)
Theorem two_error_kinds :
  Forall (fun rt => forall r log,
    returned (handler rt) r log = None /\
    (StatusCode (evalState (serve (handler rt) r) log) = 200 \/
     StatusCode (evalState (serve (handler rt) r) log) = 201 \/
     (evalState (serve (handler rt) r) log = badRequest /\
      (method rt = POST \/ method rt = PUT)) \/
     (evalState (serve (handler rt) r) log = notFound /\
      method rt = GET /\ path rt = "/api/v1/users/:id")) /\
    StatusCode (evalState (serve (handler rt) r) log) <> 500) main /\
  badRequest
  = mkResponse 400 "application/json"
      (Some (json.Object [ ("error", json.Str "Bad Request");
                           ("message", json.Str "Invalid JSON format") ])) /\
  notFound
  = mkResponse 404 "application/json"
      (Some (json.Object [ ("error", json.Str "Not Found");
                           ("message", json.Str "User not found") ])) /\
  answer createUser (mkRequest [] [] (JSONBody None)) = badRequest /\
  answer updateUser (mkRequest [("id", "1")] [] (JSONBody None)) = badRequest /\
  answer getUserByID (mkRequest [("id", "2")] [] (JSONBody None)) = notFound.
Proof.
  split; [| repeat split].
  unfold main.
  repeat apply Forall_cons; try apply Forall_nil; intros r log;
    cbn [handler method path]; served; (split; [reflexivity |]).
  - split; [left; reflexivity | discriminate].
  - destruct (String.eqb _ "1").
    + split; [left; reflexivity | discriminate].
    + split; [| discriminate]. right. right. right. repeat split.
  - destruct (snd (parsed r)).
    + split; [| discriminate].
      right. right. left. split; [reflexivity | left; reflexivity].
    + split; [right; left; reflexivity | discriminate].
  - destruct (snd (parsed r)).
    + split; [| discriminate].
      right. right. left. split; [reflexivity | right; reflexivity].
    + split; [left; reflexivity | discriminate].
  - split; [left; reflexivity | discriminate].
Qed.

(** C9. There is a JSON object body, with the age a JSON string, that POST
    /api/v1/users answers with status 400 "Bad Request" and not 201:
    parsing the body into a CreateUserRequest fails on the type of the
    field, not on the syntax.  PUT /api/v1/users/{id} answers the same body
    with 400 too. *)
Theorem string_age_is_bad_request :
  exists members,
    In ("age", json.Str "30") members /\
    forall ps qs log,
      snd (parsed (mkRequest ps qs (JSONBody (Some (json.Object members)))))
      = Some (JSONError (json.UnmarshalTypeError "string" "age")) /\
      evalState (serve createUser
        (mkRequest ps qs (JSONBody (Some (json.Object members))))) log
      = badRequest /\
      StatusCode (evalState (serve createUser
        (mkRequest ps qs (JSONBody (Some (json.Object members))))) log) = 400 /\
      evalState (serve updateUser
        (mkRequest ps qs (JSONBody (Some (json.Object members))))) log
      = badRequest.
Proof.
  exists stringAgeBody. split; [left; reflexivity |].
  intros ps qs log. served. rewrite parsed_object.
  repeat split.
Qed.

(** C10, as written, fails: a JSON object that leaves out [email] and [age]
    and gives a number for [name] is answered 400 and not 201. *)
Lemma createUser_numeric_name_is_400 :
  answer createUser postNumericName = badRequest /\
  StatusCode (answer createUser postNumericName) <> 201.
Proof. split; [reflexivity | discriminate]. Qed.

(** C10 (amended). POST /api/v1/users with a JSON object body that parses
    into a CreateUserRequest (its [name] and [email] members strings or
    null, its [age] members integer literals in the range of int or null):
    status 201, with as data the User with id 3 built from the parsed
    request, in which every field that no member of the body names (keys
    matched without regard to case) has its zero value: the empty string
    for name and email, 0 for age.  The empty object yields the User with
    id 3, empty name, empty email and age 0. *)
Theorem createUser_zero_for_omitted members ps qs log :
  wellTyped members = true ->
  (evalState (serve createUser
     (mkRequest ps qs (JSONBody (Some (json.Object members))))) log
   = jsonResponse 201
       (SuccessResponse.mk "User created successfully"
          (Some (userOf 3
             (fst (parsed (mkRequest ps qs (JSONBody (Some (json.Object members)))))))))
   /\
   (omits "name" members = true ->
    CreateUserRequest.Name
      (fst (parsed (mkRequest ps qs (JSONBody (Some (json.Object members)))))) = EmptyString) /\
   (omits "email" members = true ->
    CreateUserRequest.Email
      (fst (parsed (mkRequest ps qs (JSONBody (Some (json.Object members)))))) = EmptyString) /\
   (omits "age" members = true ->
    CreateUserRequest.Age
      (fst (parsed (mkRequest ps qs (JSONBody (Some (json.Object members)))))) = 0)) /\
  evalState (serve createUser (mkRequest ps qs (JSONBody (Some (json.Object []))))) log
  = jsonResponse 201
      (SuccessResponse.mk "User created successfully" (Some (User.mk 3 EmptyString EmptyString 0))).
Proof.
  intros H. split; [| reflexivity].
  served. rewrite (parsed_wellTyped _ _ _ H).
  split; [reflexivity |].
  unfold requestOf. cbn [fst CreateUserRequest.Name CreateUserRequest.Email
    CreateUserRequest.Age].
  repeat split; intros Ho; rewrite (omits_submitted _ _ Ho); reflexivity.
Qed.

Lemma createUser_zero_for_omitted_witness :
  wellTyped emailOnlyBody = true /\
  evalState (serve createUser
    (mkRequest [] [] (JSONBody (Some (json.Object emailOnlyBody))))) []
  = jsonResponse 201
      (SuccessResponse.mk "User created successfully"
         (Some (User.mk 3 EmptyString "ann@example.com" 0))).
Proof.
  split; [reflexivity |].
  exact (proj1 (proj1 (createUser_zero_for_omitted emailOnlyBody [] [] [] eq_refl))).
Defined.

(* ===================================================================== *)
(** * Integer literals and the range of [int] *)
(* ===================================================================== *)

Lemma ParseInt_range lit n :
  json.ParseInt lit json.intSize = Some n -> minInt <= n <= maxInt.
Proof.
  unfold json.ParseInt, minInt, maxInt.
  destruct (json.frac lit); [| discriminate].
  destruct (json.exp lit); [| discriminate].
  set (v := if json.neg lit then _ else _).
  destruct (andb _ _) eqn:Hb; [| discriminate].
  intros [= <-]. apply andb_true_iff in Hb. destruct Hb as [Hlo Hhi].
  apply Z.leb_le in Hlo. apply Z.leb_le in Hhi. split; assumption.
Qed.

Lemma ParseInt_integer z :
  json.ParseInt (json.mkNumber (z <? 0) (Z.abs_N z) EmptyString EmptyString)
    json.intSize
  = if (minInt <=? z) && (z <=? maxInt) then Some z else None.
Proof.
  unfold json.ParseInt, minInt, maxInt. cbn [json.frac json.exp json.neg json.int].
  rewrite N2Z.inj_abs_N.
  replace (if z <? 0 then - Z.abs z else Z.abs z) with z; [reflexivity |].
  destruct (Z.ltb_spec z 0).
  - rewrite Z.abs_neq by apply Z.lt_le_incl, H. now rewrite Z.opp_involutive.
  - now rewrite Z.abs_eq.
Qed.

Lemma ParseInt_fraction lit :
  json.frac lit <> EmptyString \/ json.exp lit <> EmptyString ->
  json.ParseInt lit json.intSize = None.
Proof.
  unfold json.ParseInt. intros [H | H].
  - destruct (json.frac lit); [now elim H | reflexivity].
  - destruct (json.frac lit); [| reflexivity].
    destruct (json.exp lit); [now elim H | reflexivity].
Qed.

(** The decoder keeps the age within the range of [int]. *)
Lemma storeMember_age_range m d :
  minInt <= CreateUserRequest.Age (fst d) <= maxInt ->
  minInt <= CreateUserRequest.Age (fst (storeMember m d)) <= maxInt.
Proof.
  intros H. unfold storeMember. rewrite findField_CreateUserRequest.
  destruct (names "name" (fst m));
    [| destruct (names "email" (fst m));
       [| destruct (names "age" (fst m)); [| exact H]]];
    unfold json.literalStore, json.saveError;
    destruct (snd m) as [| b | lit | s | elems | obj];
    cbn [json.store nameField emailField ageField];
    try (destruct (snd d); exact H); try exact H.
  destruct (json.ParseInt lit json.intSize) as [n |] eqn:Hp.
  - cbn. apply (ParseInt_range _ _ Hp).
  - destruct (snd d); exact H.
Qed.

Lemma object_cons m members d :
  json.object CreateUserRequest_fields (m :: members) d
  = json.object CreateUserRequest_fields members (storeMember m d).
Proof. destruct m as [key v]. reflexivity. Qed.

Lemma object_age_range members d :
  minInt <= CreateUserRequest.Age (fst d) <= maxInt ->
  minInt <= CreateUserRequest.Age
              (fst (json.object CreateUserRequest_fields members d)) <= maxInt.
Proof.
  revert d. induction members as [| m members IH]; intros d H.
  - exact H.
  - rewrite object_cons. apply IH, storeMember_age_range, H.
Qed.

Lemma zero_age_range :
  minInt <= CreateUserRequest.Age CreateUserRequest.zero <= maxInt.
Proof. unfold minInt, maxInt. cbn. split; discriminate. Qed.

Lemma parsed_payload r r' : payload r = payload r' -> parsed r = parsed r'.
Proof.
  unfold parsed, evalState, BodyParser. cbn. intros ->.
  destruct (payload r') as [data | raw]; [| reflexivity].
  destruct (json.UnmarshalStruct _ data _) as [req e]. reflexivity.
Qed.

Lemma parsed_age_range r :
  minInt <= CreateUserRequest.Age (fst (parsed r)) <= maxInt.
Proof.
  destruct r as [ps qs [[v |] | raw]]; try apply zero_age_range.
  destruct v as [| b | lit | s | elems | members]; try apply zero_age_range.
  rewrite parsed_object. cbn [fst].
  apply object_age_range, zero_age_range.
Qed.

(** Decoding the encoding of a user whose age is an [int]. *)
Lemma parsed_Marshal_User (u : User) ps qs :
  minInt <= User.Age u <= maxInt ->
  parsed (withJSON ps qs (json.Marshal u))
  = (CreateUserRequest.mk (User.Name u) (User.Email u) (User.Age u), None).
Proof.
  intros [Hlo Hhi]. unfold withJSON. cbn [json.Marshal Marshaler_User].
  rewrite parsed_object. rewrite !object_cons. cbn [json.object].
  unfold storeMember at 4. rewrite findField_CreateUserRequest. cbn [fst].
  change (names "name" "id") with false. change (names "email" "id") with false.
  change (names "age" "id") with false. cbn iota.
  unfold storeMember at 3. rewrite findField_CreateUserRequest. cbn [fst snd].
  change (names "name" "name") with true. cbn iota.
  unfold storeMember at 2. rewrite findField_CreateUserRequest. cbn [fst snd].
  change (names "name" "email") with false.
  change (names "email" "email") with true. cbn iota.
  unfold storeMember. rewrite findField_CreateUserRequest. cbn [fst snd].
  change (names "name" "age") with false. change (names "email" "age") with false.
  change (names "age" "age") with true. cbn iota.
  unfold json.literalStore, json.integer.
  cbn [json.store nameField emailField ageField fst snd].
  rewrite ParseInt_integer.
  apply Z.leb_le in Hlo. apply Z.leb_le in Hhi. rewrite Hlo, Hhi.
  reflexivity.
Qed.

(* ===================================================================== *)
(** * Members the decoder passes over, and the spelling of keys *)
(* ===================================================================== *)

Lemma storeMember_irrelevant m d : relevant m = false -> storeMember m d = d.
Proof.
  unfold relevant, storeMember. rewrite findField_CreateUserRequest.
  intros H. apply andb_false_iff in H. destruct H as [H | H].
  - apply orb_false_iff in H. destruct H as [H Ha].
    apply orb_false_iff in H. destruct H as [Hn He].
    rewrite Hn, He, Ha. reflexivity.
  - apply negb_false_iff in H.
    destruct (snd m); try discriminate H.
    destruct (names "name" (fst m)); [reflexivity |].
    destruct (names "email" (fst m)); [reflexivity |].
    destruct (names "age" (fst m)); reflexivity.
Qed.

Lemma object_filter_relevant members d :
  json.object CreateUserRequest_fields (filter relevant members) d
  = json.object CreateUserRequest_fields members d.
Proof.
  revert d. induction members as [| m members IH]; intros d.
  - reflexivity.
  - cbn [filter]. destruct (relevant m) eqn:Hr.
    + rewrite !object_cons. apply IH.
    + rewrite object_cons, (storeMember_irrelevant _ _ Hr). apply IH.
Qed.

Lemma names_sameButCase fname m m' :
  sameButCase m m' -> names fname (fst m) = names fname (fst m').
Proof.
  intros [Hk _]. unfold names, json.equalFold. rewrite Hk. reflexivity.
Qed.

Lemma storeMember_sameButCase m m' d :
  sameButCase m m' -> storeMember m d = storeMember m' d.
Proof.
  intros H. unfold storeMember. rewrite !findField_CreateUserRequest.
  rewrite !(names_sameButCase _ _ _ H). destruct H as [_ ->]. reflexivity.
Qed.

Lemma object_sameButCase members members' :
  Forall2 sameButCase members members' ->
  forall d,
    json.object CreateUserRequest_fields members d
    = json.object CreateUserRequest_fields members' d.
Proof.
  induction 1 as [| m m' members members' Hm _ IH]; intros d.
  - reflexivity.
  - rewrite !object_cons, (storeMember_sameButCase _ _ _ Hm). apply IH.
Qed.

Lemma parsed_object_eq ps qs ps' qs' members members' :
  json.object CreateUserRequest_fields members (CreateUserRequest.zero, None)
  = json.object CreateUserRequest_fields members' (CreateUserRequest.zero, None) ->
  parsed (withJSON ps qs (json.Object members))
  = parsed (withJSON ps' qs' (json.Object members')).
Proof. intros H. unfold withJSON. rewrite !parsed_object, H. reflexivity. Qed.

(* ===================================================================== *)
(** * The log of a run *)
(* ===================================================================== *)

Lemma serve_main_logLines rt r log :
  In rt main ->
  runState (serve (handler rt) r) log
  = (answer (handler rt) r, (log ++ logLines (rt, r))%list).
Proof.
  unfold main, logLines.
  intros [<- | [<- | [<- | [<- | [<- | []]]]]]; cbn [handler method fst snd];
    served; rewrite ?app_nil_r; reflexivity.
Qed.

(* ===================================================================== *)
(** * Further properties of the handlers *)
(* ===================================================================== *)

Lemma created_eta req :
  created (CreateUserRequest.mk (CreateUserRequest.Name req)
             (CreateUserRequest.Email req) (CreateUserRequest.Age req))
  = created req.
Proof. destruct req. reflexivity. Qed.

Lemma updated_eta req :
  updated (CreateUserRequest.mk (CreateUserRequest.Name req)
             (CreateUserRequest.Email req) (CreateUserRequest.Age req))
  = updated req.
Proof. destruct req. reflexivity. Qed.

(** X1. A user record can be sent back as a request body: for a [User]
    whose age is in the range of int, POST of its JSON encoding answers 201
    with the same name, email and age under id 3, and PUT answers 200 with
    them under id 1; the [id] member of the body is passed over. *)
Theorem user_encoding_is_a_request (u : User) ps qs log :
  minInt <= User.Age u <= maxInt ->
  evalState (serve createUser (withJSON ps qs (json.Marshal u))) log
  = jsonResponse 201
      (SuccessResponse.mk "User created successfully"
         (Some (User.mk 3 (User.Name u) (User.Email u) (User.Age u)))) /\
  evalState (serve updateUser (withJSON ps qs (json.Marshal u))) log
  = jsonResponse 200
      (SuccessResponse.mk "User updated successfully"
         (Some (User.mk 1 (User.Name u) (User.Email u) (User.Age u)))).
Proof.
  intros H. served. rewrite (parsed_Marshal_User u ps qs H).
  split; reflexivity.
Qed.

Lemma user_encoding_is_a_request_witness :
  minInt <= User.Age janeSmith <= maxInt /\
  evalState (serve createUser (withJSON [] [] (json.Marshal janeSmith))) []
  = jsonResponse 201
      (SuccessResponse.mk "User created successfully"
         (Some (User.mk 3 "Jane Smith" "jane@example.com" 25))).
Proof.
  assert (H : minInt <= User.Age janeSmith <= maxInt).
  { unfold minInt, maxInt. cbn. split; discriminate. }
  split; [exact H |].
  exact (proj1 (user_encoding_is_a_request janeSmith [] [] [] H)).
Defined.

(** X2. Whatever the body, the age [BodyParser] leaves in the request struct
    is in the range of int, and so is the age of the user in any answer
    of POST or PUT that is not the 400 response. *)
Theorem echoed_age_is_an_int r log :
  minInt <= CreateUserRequest.Age (fst (parsed r)) <= maxInt /\
  (evalState (serve createUser r) log = badRequest \/
   evalState (serve createUser r) log = created (fst (parsed r))) /\
  (evalState (serve updateUser r) log = badRequest \/
   evalState (serve updateUser r) log = updated (fst (parsed r))).
Proof.
  split; [apply parsed_age_range |].
  served. destruct (snd (parsed r)); split; (left; reflexivity) || (right; reflexivity).
Qed.

(** X3. The data of a create response is itself a body the handlers accept:
    when POST answers a request with 201, POST of that response's [data]
    gets the very same response, and PUT of it answers 200 with the same
    name, email and age. *)
Theorem created_data_can_be_resubmitted r ps qs log :
  snd (parsed r) = None ->
  evalState (serve createUser
    (withJSON ps qs (json.Marshal (userOf 3 (fst (parsed r)))))) log
  = evalState (serve createUser r) log /\
  evalState (serve updateUser
    (withJSON ps qs (json.Marshal (userOf 3 (fst (parsed r)))))) log
  = updated (fst (parsed r)).
Proof.
  intros Hok. served.
  rewrite (parsed_Marshal_User (userOf 3 (fst (parsed r))) ps qs
             (parsed_age_range r)).
  rewrite Hok. cbn [fst snd userOf User.Name User.Email User.Age].
  rewrite created_eta, updated_eta. split; reflexivity.
Qed.

Lemma created_data_can_be_resubmitted_witness :
  snd (parsed putAnn) = None /\
  evalState (serve updateUser
    (withJSON [] [] (json.Marshal (User.mk 3 "Ann" "ann@example.com" 31)))) []
  = jsonResponse 200
      (SuccessResponse.mk "User updated successfully"
         (Some (User.mk 1 "Ann" "ann@example.com" 31))).
Proof.
  split; [reflexivity |].
  exact (proj2 (created_data_can_be_resubmitted putAnn [] [] [] eq_refl)).
Defined.



(** X5. A JSON object body is decided by its members alone, the same for
    POST and PUT: when every [name] and [email] member is a string or null
    and every [age] member an integer literal in the range of int or null,
    the answer is the success response with the submitted fields; when one
    member is not, the answer is 400, even if a later member under the same
    key is well typed. *)
Theorem object_body_decision members ps qs log :
  evalState (serve createUser (withJSON ps qs (json.Object members))) log
  = (if wellTyped members then created (requestOf members) else badRequest) /\
  evalState (serve updateUser (withJSON ps qs (json.Object members))) log
  = (if wellTyped members then updated (requestOf members) else badRequest).
Proof.
  served. unfold withJSON. destruct (wellTyped members) eqn:Hw.
  - rewrite (parsed_wellTyped _ _ _ Hw). split; reflexivity.
  - pose proof (parsed_illTyped ps qs _ Hw) as He.
    destruct (snd (parsed _)); [split; reflexivity | now elim He].
Qed.

(** X6. Members the decoder passes over: a member whose key names none of
    name, email, age (letter case aside), or whose value is null, has no
    effect.  POST and PUT answer an object body as they answer the body
    with those members removed. *)
Theorem passed_over_members_have_no_effect members ps qs log :
  evalState (serve createUser (withJSON ps qs (json.Object members))) log
  = evalState (serve createUser
      (withJSON ps qs (json.Object (filter relevant members)))) log /\
  evalState (serve updateUser (withJSON ps qs (json.Object members))) log
  = evalState (serve updateUser
      (withJSON ps qs (json.Object (filter relevant members)))) log.
Proof.
  served.
  rewrite (parsed_object_eq ps qs ps qs members (filter relevant members)).
  - split; reflexivity.
  - symmetry. apply object_filter_relevant.
Qed.

(** X7. Keys are matched without regard to letter case: two object bodies
    whose members are, one by one, the same value under keys that differ in
    the case of ASCII letters only get the same answer from POST and from
    PUT. *)
Theorem key_case_does_not_matter members members' ps qs log :
  Forall2 sameButCase members members' ->
  evalState (serve createUser (withJSON ps qs (json.Object members))) log
  = evalState (serve createUser (withJSON ps qs (json.Object members'))) log /\
  evalState (serve updateUser (withJSON ps qs (json.Object members))) log
  = evalState (serve updateUser (withJSON ps qs (json.Object members'))) log.
Proof.
  intros H. served.
  rewrite (parsed_object_eq ps qs ps qs members members').
  - split; reflexivity.
  - apply object_sameButCase, H.
Qed.

Lemma key_case_does_not_matter_witness :
  Forall2 sameButCase shoutedBody quietBody /\
  evalState (serve createUser (withJSON [] [] (json.Object shoutedBody))) []
  = evalState (serve createUser (withJSON [] [] (json.Object quietBody))) [].
Proof.
  assert (H : Forall2 sameButCase shoutedBody quietBody).
  { unfold shoutedBody, quietBody, sameButCase.
    repeat constructor. }
  split; [exact H |].
  exact (proj1 (key_case_does_not_matter shoutedBody quietBody [] [] [] H)).
Defined.

(** X8. The bounds of the age.  For a body [{"age": n}] with an integer
    literal n: POST answers 201 with age n exactly when n lies between the
    least and the greatest int (-2^63 and 2^63-1), zero and negative ages
    included, and 400 otherwise. *)
Theorem age_integer_bounds (n : Z) ps qs log :
  evalState (serve createUser
    (withJSON ps qs (json.Object [ ("age", json.integer n) ]))) log
  = (if (- 2 ^ 63 <=? n) && (n <=? 2 ^ 63 - 1)
     then jsonResponse 201
            (SuccessResponse.mk "User created successfully"
               (Some (User.mk 3 EmptyString EmptyString n)))
     else badRequest).
Proof.
  served. unfold withJSON. rewrite parsed_object. rewrite object_cons.
  cbn [json.object]. unfold storeMember. rewrite findField_CreateUserRequest.
  cbn [fst snd]. change (names "name" "age") with false.
  change (names "email" "age") with false. change (names "age" "age") with true.
  cbn iota. unfold json.literalStore, json.integer.
  cbn [json.store ageField fst snd]. rewrite ParseInt_integer.
  change minInt with (- 2 ^ 63). change maxInt with (2 ^ 63 - 1).
  destruct ((- 2 ^ 63 <=? n) && (n <=? 2 ^ 63 - 1)); reflexivity.
Qed.

(** X9. An age written with a fraction or an exponent part is rejected,
    whatever its value (30.0 and 3e1 as well): an object body with such a
    member under [age] gets 400 from POST and from PUT. *)
Theorem age_with_fraction_is_rejected lit members ps qs log :
  json.frac lit <> EmptyString \/ json.exp lit <> EmptyString ->
  In ("age", json.Num lit) members ->
  evalState (serve createUser (withJSON ps qs (json.Object members))) log
  = badRequest /\
  evalState (serve updateUser (withJSON ps qs (json.Object members))) log
  = badRequest.
Proof.
  intros Hlit Hin.
  assert (Hw : wellTyped members = false).
  { destruct (wellTyped members) eqn:Hw; [| reflexivity].
    unfold wellTyped in Hw. rewrite forallb_forall in Hw.
    specialize (Hw _ Hin). unfold accepted in Hw. cbn [fst snd] in Hw.
    change (names "name" "age") with false in Hw.
    change (names "email" "age") with false in Hw.
    change (names "age" "age") with true in Hw. cbn [orb] in Hw.
    rewrite (ParseInt_fraction _ Hlit) in Hw. discriminate Hw. }
  served. unfold withJSON.
  pose proof (parsed_illTyped ps qs _ Hw) as He.
  destruct (snd (parsed _)); [split; reflexivity | now elim He].
Qed.

Lemma age_with_fraction_is_rejected_witness :
  (json.frac thirtyPointZero <> EmptyString \/
   json.exp thirtyPointZero <> EmptyString) /\
  In ("age", json.Num thirtyPointZero)
     [ ("name", json.Str "Ann"); ("age", json.Num thirtyPointZero) ] /\
  evalState (serve createUser (withJSON [] []
    (json.Object [ ("name", json.Str "Ann"); ("age", json.Num thirtyPointZero) ]))) []
  = badRequest.
Proof.
  assert (H1 : json.frac thirtyPointZero <> EmptyString \/
               json.exp thirtyPointZero <> EmptyString).
  { left. discriminate. }
  assert (H2 : In ("age", json.Num thirtyPointZero)
                 [ ("name", json.Str "Ann"); ("age", json.Num thirtyPointZero) ]).
  { right. left. reflexivity. }
  split; [exact H1 |]. split; [exact H2 |].
  exact (proj1 (age_with_fraction_is_rejected thirtyPointZero _ [] [] [] H1 H2)).
Defined.

(** X10. What a run leaves in the log.  After any calls to routes of
    [main], answered one after another, the log is the log before, followed
    by one line per PUT call ([update user id: ] and the path id) and one
    per DELETE call ([delete user id: ] and the path id), in the order of
    the calls, and nothing for GET and POST calls.  A PUT call is logged
    whether its body parses or not. *)
Theorem log_of_a_run calls log :
  Forall (fun call => In (fst call) main) calls ->
  execState (serveAll calls) log = (log ++ flat_map logLines calls)%list.
Proof.
  intros H. revert log.
  induction H as [| [rt r] calls Hrt _ IH]; intros log.
  - cbn. now rewrite app_nil_r.
  - unfold execState in *. cbn [serveAll flat_map].
    cbn [bind Monad_state runState].
    rewrite (serve_main_logLines rt r log Hrt).
    specialize (IH (log ++ logLines (rt, r))%list).
    destruct (runState (serveAll calls) (log ++ logLines (rt, r))%list)
      as [resps log'].
    cbn in IH |- *. rewrite IH, app_assoc. reflexivity.
Qed.

Lemma log_of_a_run_witness :
  Forall (fun call => In (fst call) main) mixedCalls /\
  execState (serveAll mixedCalls) ["started"]
  = [ "started"; "update user id: 7"; "update user id: 8";
      "delete user id: abc" ].
Proof.
  assert (H : Forall (fun call => In (fst call) main) mixedCalls).
  { unfold mixedCalls, main. repeat constructor; cbn [fst]; tauto. }
  split; [exact H |].
  exact (log_of_a_run mixedCalls ["started"] H).
Defined.

(** X11. What the handlers read of a request: the route parameter [id] and
    the body, nothing else.  Two requests with the same [id] and the same
    body get, from any route of [main], the same response and leave the
    same log, whatever their query strings and other parameters. *)
Theorem handlers_read_id_and_body_only rt r r' log :
  In rt main ->
  param "id" r = param "id" r' ->
  payload r = payload r' ->
  runState (serve (handler rt) r) log = runState (serve (handler rt) r') log.
Proof.
  unfold main. intros Hrt Hid Hbody.
  destruct Hrt as [<- | [<- | [<- | [<- | [<- | []]]]]]; cbn [handler];
    served; rewrite ?Hid, ?(parsed_payload _ _ Hbody); reflexivity.
Qed.

Lemma handlers_read_id_and_body_only_witness :
  In updateRoute main /\
  runState (serve updateUser
    (mkRequest [("id", "42")] [("page", "3")] (JSONBody (Some (json.Object annBody))))) []
  = runState (serve updateUser putAnn) [].
Proof.
  assert (H : In updateRoute main).
  { unfold updateRoute, main. cbn. tauto. }
  split; [exact H |].
  exact (handlers_read_id_and_body_only updateRoute
           (mkRequest [("id", "42")] [("page", "3")]
              (JSONBody (Some (json.Object annBody))))
           putAnn [] H eq_refl eq_refl).
Defined.

(** X12. The read handlers against each other.  A user GET /users/{id}
    answers with status 200 is always an element of the array GET /users
    answers; but not every listed user can be read: Jane Smith is listed
    with id 2 and GET /users/2 answers 404. *)
Theorem read_user_is_listed (id : string) qs body log :
  (StatusCode (evalState (serve getUserByID (mkRequest [("id", id)] qs body)) log) = 404
   \/
   exists u,
     In u [johnDoe; janeSmith] /\
     evalState (serve getUsers (mkRequest [] qs body)) log
     = jsonResponse 200 [johnDoe; janeSmith] /\
     evalState (serve getUserByID (mkRequest [("id", id)] qs body)) log
     = jsonResponse 200 u) /\
  (In janeSmith [johnDoe; janeSmith] /\ User.ID janeSmith = 2 /\
   evalState (serve getUserByID (mkRequest [("id", "2")] qs body)) log = notFound).
Proof.
  split.
  - served. rewrite param_id. destruct (String.eqb id "1").
    + right. exists johnDoe. repeat split. left. reflexivity.
    + left. reflexivity.
  - repeat split. right. left. reflexivity.
Qed.

(** X13. POST and PUT treat a body alike: given the same body, either both
    answer the 400 response, or both succeed and echo the same name, email
    and age, POST under id 3 with status 201 and PUT under id 1 with
    status 200, whatever the path id of the PUT. *)
Theorem create_and_update_agree ps qs ps' qs' p log log' :
  (evalState (serve createUser (mkRequest ps qs p)) log = badRequest /\
   evalState (serve updateUser (mkRequest ps' qs' p)) log' = badRequest)
  \/
  (exists req,
     evalState (serve createUser (mkRequest ps qs p)) log = created req /\
     evalState (serve updateUser (mkRequest ps' qs' p)) log' = updated req).
Proof.
  served.
  rewrite (parsed_payload (mkRequest ps' qs' p) (mkRequest ps qs p) eq_refl).
  destruct (snd (parsed (mkRequest ps qs p))).
  - left. split; reflexivity.
  - right. exists (fst (parsed (mkRequest ps qs p))). split; reflexivity.
Qed.

(* ===================================================================== *)
(** * The handlers against docs/swagger.yaml *)
(* ===================================================================== *)

Lemma validates_User (u : User) :
  swagger.validates swagger.main_User (json.Marshal u) = true.
Proof. reflexivity. Qed.

Lemma validates_ErrorResponse (e : ErrorResponse) :
  swagger.validates swagger.main_ErrorResponse (json.Marshal e) = true.
Proof. reflexivity. Qed.

Lemma validates_SuccessResponse (s : SuccessResponse) :
  swagger.validates swagger.main_SuccessResponse (json.Marshal s) = true.
Proof. destruct s as [msg [u |]]; reflexivity. Qed.

Lemma validates_Users (us : list User) :
  swagger.validates (swagger.ArrayOf swagger.main_User) (json.Marshal us) = true.
Proof.
  cbn [swagger.validates json.Marshal json.Marshaler_list].
  rewrite forallb_forall. intros v Hv. apply in_map_iff in Hv.
  destruct Hv as [u [<- _]]. apply validates_User.
Qed.

(** X14. Every answer is a documented one.  For each handler, the document
    has an operation under the path and method of the handler's [@Router]
    annotation, and whatever the request, the handler's response has a
    status the operation lists, a body that validates against the schema
    listed for that status, and the content type the operation produces. *)
Theorem responses_are_as_documented :
  Forall (fun entry =>
    exists op,
      swagger.operation (fst (snd entry)) (snd (snd entry)) = Some op /\
      forall r log, asDocumented op (evalState (serve (fst entry) r) log) = true)
    Router.
Proof.
  unfold Router.
  repeat apply Forall_cons; try apply Forall_nil; cbn [fst snd];
    (eexists; split; [reflexivity |]); intros r log; served.
  - reflexivity.
  - destruct (String.eqb _ "1"); reflexivity.
  - destruct (snd (parsed r)); reflexivity.
  - destruct (snd (parsed r)); reflexivity.
  - reflexivity.
Qed.

(** X15. The statuses each handler can answer, exactly: GET /users 200;
    GET /users/{id} 200 and 404; POST /users 201 and 400; PUT /users/{id}
    200 and 400; DELETE /users/{id} 200.  So of the documented responses,
    500 on GET /users, 400 on GET /users/{id}, 422 on POST, 404 on PUT, and
    400 and 404 on DELETE are never given. *)
Theorem statuses_of_each_handler (code : Z) :
  (reachable getUsers code <-> code = 200) /\
  (reachable getUserByID code <-> code = 200 \/ code = 404) /\
  (reachable createUser code <-> code = 201 \/ code = 400) /\
  (reachable updateUser code <-> code = 200 \/ code = 400) /\
  (reachable deleteUser code <-> code = 200).
Proof.
  unfold reachable. repeat split.
  - intros [r [log <-]]. reflexivity.
  - intros ->. exists (mkRequest [] [] (NoDecoder EmptyString)), []. reflexivity.
  - intros [r [log <-]]. served.
    destruct (String.eqb _ "1"); [left | right]; reflexivity.
  - intros [-> | ->].
    + exists (mkRequest [("id", "1")] [] (NoDecoder EmptyString)), []. reflexivity.
    + exists (mkRequest [("id", "2")] [] (NoDecoder EmptyString)), []. reflexivity.
  - intros [r [log <-]]. served.
    destruct (snd (parsed r)); [right | left]; reflexivity.
  - intros [-> | ->].
    + exists (mkRequest [] [] (JSONBody (Some (json.Object [])))), []. reflexivity.
    + exists (mkRequest [] [] (JSONBody None)), []. reflexivity.
  - intros [r [log <-]]. served.
    destruct (snd (parsed r)); [right | left]; reflexivity.
  - intros [-> | ->].
    + exists (mkRequest [] [] (JSONBody (Some (json.Object [])))), []. reflexivity.
    + exists (mkRequest [] [] (JSONBody None)), []. reflexivity.
  - intros [r [log <-]]. reflexivity.
  - intros ->. exists (mkRequest [] [] (NoDecoder EmptyString)), []. reflexivity.
Qed.

Lemma submitted_In fname members v :
  submitted fname members = Some v ->
  exists key, In (key, v) members /\ names fname key = true /\ isNull v = false.
Proof.
  unfold submitted.
  destruct (find _ (rev members)) as [[key w] |] eqn:Hf; [| discriminate].
  intros [= <-]. apply find_some in Hf. destruct Hf as [Hin Hp].
  apply andb_true_iff in Hp. destruct Hp as [Hk Hv].
  exists key. split; [apply in_rev, Hin |].
  split; [exact Hk | apply negb_true_iff, Hv].
Qed.

Lemma submitted_Some fname members key v :
  In (key, v) members -> names fname key = true -> isNull v = false ->
  submitted fname members <> None.
Proof.
  intros Hin Hk Hv. unfold submitted.
  destruct (find _ (rev members)) eqn:Hf; [discriminate |].
  apply in_rev in Hin. apply (find_none _ _ Hf) in Hin.
  cbn [fst snd] in Hin. rewrite Hk, Hv in Hin. discriminate Hin.
Qed.

(** What validity against a property schema says of the members under the
    property's key. *)
Lemma validates_property members key s rest required :
  swagger.validates (swagger.ObjectOf ((key, s) :: rest) required)
    (json.Object members) = true ->
  (forall v, In (key, v) members -> swagger.validates s v = true) /\
  swagger.validates (swagger.ObjectOf rest required) (json.Object members) = true.
Proof.
  cbn [swagger.validates]. intros H.
  apply andb_true_iff in H. destruct H as [Hreq H].
  apply andb_true_iff in H. destruct H as [Hkey Hrest].
  split.
  - intros v Hin. rewrite forallb_forall in Hkey. specialize (Hkey _ Hin).
    cbn [fst snd] in Hkey. rewrite String.eqb_refl in Hkey. exact Hkey.
  - rewrite Hreq, Hrest. reflexivity.
Qed.

Lemma validates_required members properties key rest :
  swagger.validates (swagger.ObjectOf properties (key :: rest))
    (json.Object members) = true ->
  (exists v, In (key, v) members) /\
  swagger.validates (swagger.ObjectOf properties rest) (json.Object members) = true.
Proof.
  cbn [swagger.validates forallb]. intros H.
  apply andb_true_iff in H. destruct H as [H Hprops].
  apply andb_true_iff in H. destruct H as [Hkey Hrest].
  split.
  - apply existsb_exists in Hkey. destruct Hkey as [[k v] [Hin Hk]].
    cbn [fst] in Hk. apply String.eqb_eq in Hk. subst k. exists v. exact Hin.
  - rewrite Hrest, Hprops. reflexivity.
Qed.

Lemma plainKey_spec m fname :
  plainKey m = true ->
  In fname [ "name"; "email"; "age" ] ->
  names fname (fst m) = true -> fst m = fname.
Proof.
  unfold plainKey. rewrite forallb_forall. intros H Hin Hn.
  specialize (H _ Hin). rewrite Hn in H. apply String.eqb_eq, H.
Qed.

Lemma validates_minimum_1 lit :
  swagger.validates (swagger.Integer (Some 1)) (json.Num lit) = true ->
  json.frac lit = EmptyString /\ json.exp lit = EmptyString /\
  json.neg lit = false /\ 1 <= Z.of_N (json.int lit).
Proof.
  cbn [swagger.validates].
  destruct (json.frac lit); [| discriminate].
  destruct (json.exp lit); [| discriminate].
  destruct (json.neg lit); intros H; apply Z.leb_le in H.
  - exfalso. pose proof (N2Z.is_nonneg (json.int lit)) as Hn.
    apply (Z.lt_irrefl 0).
    apply Z.lt_le_trans with 1; [reflexivity |].
    apply Z.le_trans with (- Z.of_N (json.int lit)); [exact H |].
    apply Z.opp_nonpos_nonneg, Hn.
  - repeat split. exact H.
Qed.

Lemma ParseInt_plain lit :
  json.frac lit = EmptyString -> json.exp lit = EmptyString ->
  json.neg lit = false ->
  1 <= Z.of_N (json.int lit) <= maxInt ->
  json.ParseInt lit json.intSize = Some (Z.of_N (json.int lit)).
Proof.
  intros Hf He Hn [Hlo Hhi]. unfold json.ParseInt. rewrite Hf, He, Hn.
  fold minInt maxInt.
  assert (Hmin : minInt <= Z.of_N (json.int lit)).
  { apply Z.le_trans with 1; [discriminate | exact Hlo]. }
  apply Z.leb_le in Hmin. apply Z.leb_le in Hhi. rewrite Hmin, Hhi.
  reflexivity.
Qed.

(** X16. A request that satisfies the documented schema is accepted and
    honoured.  For an object body that validates against
    [main.CreateUserRequest] (name and email strings, age an integer of at
    least 1, all three present), whose keys are spelled as in the schema and
    whose ages do not exceed the greatest int: POST answers 201 with the
    submitted fields, the name and the email are strings of the body, and
    the age is at least 1. *)
Theorem documented_request_is_honoured members ps qs log :
  swagger.validates swagger.main_CreateUserRequest (json.Object members) = true ->
  forallb plainKey members = true ->
  (forall lit, In ("age", json.Num lit) members ->
               Z.of_N (json.int lit) <= maxInt) ->
  evalState (serve createUser (withJSON ps qs (json.Object members))) log
  = created (requestOf members) /\
  In ("name", json.Str (CreateUserRequest.Name (requestOf members))) members /\
  In ("email", json.Str (CreateUserRequest.Email (requestOf members))) members /\
  1 <= CreateUserRequest.Age (requestOf members) <= maxInt.
Proof.
  intros Hvalid Hplain Hfits.
  unfold swagger.main_CreateUserRequest in Hvalid.
  destruct (validates_property _ _ _ _ _ Hvalid) as [Hage Hvalid1].
  destruct (validates_property _ _ _ _ _ Hvalid1) as [Hemail Hvalid2].
  destruct (validates_property _ _ _ _ _ Hvalid2) as [Hname Hvalid3].
  destruct (validates_required _ _ _ _ Hvalid3) as [[va Hina] Hvalid4].
  destruct (validates_required _ _ _ _ Hvalid4) as [[ve Hine] Hvalid5].
  destruct (validates_required _ _ _ _ Hvalid5) as [[vn Hinn] _].
  rewrite forallb_forall in Hplain.
  (* what a member under a key that names a field looks like *)
  assert (Hstr : forall fname key v,
            (fname = "name" \/ fname = "email") ->
            In (key, v) members -> names fname key = true ->
            key = fname /\ exists s, v = json.Str s).
  { intros fname key v Hf Hin Hn.
    assert (Hk : key = fname).
    { apply (plainKey_spec (key, v) fname (Hplain _ Hin)); [| exact Hn].
      destruct Hf as [-> | ->]; cbn; tauto. }
    subst key. split; [reflexivity |].
    assert (Hv : swagger.validates swagger.String_ v = true).
    { destruct Hf as [-> | ->]; [apply Hname | apply Hemail]; exact Hin. }
    destruct v; try discriminate Hv. eexists. reflexivity. }
  assert (Hint : forall key v,
            In (key, v) members -> names "age" key = true ->
            key = "age" /\ exists lit, v = json.Num lit /\
              json.ParseInt lit json.intSize = Some (Z.of_N (json.int lit)) /\
              1 <= Z.of_N (json.int lit) <= maxInt).
  { intros key v Hin Hn.
    assert (Hk : key = "age").
    { apply (plainKey_spec (key, v) "age" (Hplain _ Hin)); [| exact Hn].
      cbn; tauto. }
    subst key. split; [reflexivity |].
    pose proof (Hage _ Hin) as Hv.
    destruct v as [| b | lit | s | elems | obj]; try discriminate Hv.
    exists lit. split; [reflexivity |].
    destruct (validates_minimum_1 _ Hv) as [Hf [He [Hneg Hlo]]].
    pose proof (Hfits _ Hin) as Hhi.
    split; [apply ParseInt_plain; try assumption; split; assumption |].
    split; assumption. }
  assert (Hw : wellTyped members = true).
  { unfold wellTyped. apply forallb_forall. intros [key v] Hin.
    unfold accepted. cbn [fst snd].
    destruct (names "name" key) eqn:Hn.
    - destruct (Hstr "name" key v (or_introl eq_refl) Hin Hn) as [_ [s ->]].
      reflexivity.
    - destruct (names "email" key) eqn:He.
      + destruct (Hstr "email" key v (or_intror eq_refl) Hin He) as [_ [s ->]].
        reflexivity.
      + cbn [orb]. destruct (names "age" key) eqn:Ha; [| reflexivity].
        destruct (Hint key v Hin Ha) as [_ [lit [-> [Hp _]]]].
        rewrite Hp. reflexivity. }
  split.
  { served. unfold withJSON. rewrite (parsed_wellTyped _ _ _ Hw). reflexivity. }
  unfold requestOf. cbn [CreateUserRequest.Name CreateUserRequest.Email
    CreateUserRequest.Age].
  split; [| split].
  - destruct (submitted "name" members) as [v |] eqn:Hs.
    + destruct (submitted_In _ _ _ Hs) as [key [Hin [Hn _]]].
      destruct (Hstr "name" key v (or_introl eq_refl) Hin Hn) as [-> [s ->]].
      exact Hin.
    + exfalso. pose proof (Hname _ Hinn) as Hv.
      destruct vn; try discriminate Hv.
      apply (submitted_Some "name" members "name" _ Hinn); auto.
  - destruct (submitted "email" members) as [v |] eqn:Hs.
    + destruct (submitted_In _ _ _ Hs) as [key [Hin [Hn _]]].
      destruct (Hstr "email" key v (or_intror eq_refl) Hin Hn) as [-> [s ->]].
      exact Hin.
    + exfalso. pose proof (Hemail _ Hine) as Hv.
      destruct ve; try discriminate Hv.
      apply (submitted_Some "email" members "email" _ Hine); auto.
  - destruct (submitted "age" members) as [v |] eqn:Hs.
    + destruct (submitted_In _ _ _ Hs) as [key [Hin [Hn _]]].
      destruct (Hint key v Hin Hn) as [_ [lit [-> [Hp Hrange]]]].
      cbn [intOr]. rewrite Hp. exact Hrange.
    + exfalso. pose proof (Hage _ Hina) as Hv.
      destruct va; try discriminate Hv.
      apply (submitted_Some "age" members "age" _ Hina); auto.
Qed.

Lemma documented_request_is_honoured_witness :
  swagger.validates swagger.main_CreateUserRequest (json.Object annBody) = true /\
  forallb plainKey annBody = true /\
  evalState (serve createUser (withJSON [] [] (json.Object annBody))) []
  = jsonResponse 201
      (SuccessResponse.mk "User created successfully"
         (Some (User.mk 3 "Ann" "ann@example.com" 31))).
Proof.
  split; [reflexivity |]. split; [reflexivity |].
  refine (proj1 (documented_request_is_honoured annBody [] [] [] eq_refl eq_refl _)).
  intros lit [H | [H | [H | []]]]; try discriminate H.
  injection H as <-. unfold maxInt. cbn. discriminate.
Defined.
